(** * LINE-to-Sheets relay: a shallow embedding of [app.py]

    The service reads five environment values, builds three process-wide
    handles (profile client, webhook dispatcher, spreadsheet client), and
    serves three routes.  Python's control flow is embedded in a state and
    exception monad: mutation of the module globals, the log and the
    spreadsheet appends are threaded through [State]; a raised exception is
    the [Raise] outcome, and effects performed before the raise are kept.

    The two vendor SDKs and the clock are not part of the program.  Their
    outcomes are the fields of [World]; every theorem quantifies over them. *)

From Stdlib Require Import NArith Ascii String.
From stdpp Require Import base strings gmap list.

Local Open Scope string_scope.

(** ** Exceptions and outcomes *)

(** Instances of Python's [Exception] that the program distinguishes.
    [OtherException] stands for every remaining subclass (JSON decoding
    errors, HTTP errors of the SDKs, ...), tagged with its class name. *)
Inductive exn : Type :=
| InvalidSignatureError
| AttributeError
| OtherException (name : string).

#[global] Instance exn_eq_dec : EqDecision exn.
Proof. solve_decision. Defined.

Inductive result (A : Type) : Type :=
| Ok (a : A)
| Raise (e : exn).
Arguments Ok {A} a.
Arguments Raise {A} e.

(** ** Data model *)

(** [event.source] and [event.message]: [None] is Python's [None], on
    which the attribute reads of the handler raise [AttributeError]. *)
Record Source := { user_id : string }.
Record TextMessage := { text : string }.
Record MessageEvent := { source : option Source; message : option TextMessage }.

(** What the dispatcher parses out of a payload: text-message events, and
    events of any other kind. *)
Inductive Event : Type :=
| TextMessageEvent (event : MessageEvent)
| OtherEvent.

Record Profile := { display_name : string }.

(** The three handles.  [text_message_handler] records whether
    [handle_text_message] was added to this dispatcher object. *)
Record LineBotApi := { channel_access_token : string }.
Record WebhookHandler := { channel_secret : string; text_message_handler : bool }.
Record SheetsClient := { credentials_info : string }.

Record Spreadsheet := { client : SheetsClient; key : option string }.
Record Worksheet := { spreadsheet : Spreadsheet; title : string }.

(** Log records: level, the literal part of the message, and the value
    interpolated by the f-string, if any. *)
Inductive level : Type := INFO | WARNING | ERROR.

Inductive log_arg : Type :=
| NoArg
| ExnArg (e : exn)
| RowArg (row : list string)
| TextArg (t : string).

Record log_record := { levelname : level; msg : string; arg : log_arg }.

#[global] Instance level_eq_dec : EqDecision level.
Proof. solve_decision. Defined.

(** The mutable part of the process: the three module globals, the rows
    whose remote append completed (oldest first), and the log. *)
Record State := {
  line_bot_api : option LineBotApi;
  handler : option WebhookHandler;
  sheets_client : option SheetsClient;
  appended : list (Worksheet * list string);
  logs : list log_record
}.

(** ** The environment of the program *)

(** Outcomes of the vendor calls; [None] in an [option exn] is a call that
    returned.  Calls made while serving a request may depend on everything
    that happened before them, hence on the current [State]. *)
Record World := {
  LineBotApi_init : string -> option exn;
  WebhookHandler_init : string -> option exn;
  json_loads : string -> option exn;
  from_service_account_info : string -> option exn;
  authorize : string -> option exn;
  get_profile : State -> LineBotApi -> string -> result Profile;
  open_by_key : State -> SheetsClient -> option string -> option exn;
  worksheet : State -> Spreadsheet -> string -> option exn;
  append_row : State -> Worksheet -> list string -> option exn;
  now_strftime : State -> string;
  parse_events : string -> result (list Event);
  hmac_sha256 : string -> string -> list N;
  hmac_sha256_length : forall k m, length (hmac_sha256 k m) = 32%nat
}.

(** ** The state and exception monad *)

Definition M (A : Type) : Type := State -> result A * State.

Definition ret {A} (a : A) : M A := fun s => (Ok a, s).

Definition raise {A} (e : exn) : M A := fun s => (Raise e, s).

Definition bind {A B} (c : M A) (k : A -> M B) : M B :=
  fun s => match c s with
           | (Ok a, s') => k a s'
           | (Raise e, s') => (Raise e, s')
           end.

Declare Scope py_scope.
Delimit Scope py_scope with py.
Notation "x <- c ;; k" := (bind c (fun x => k))
  (at level 100, c at next level, right associativity) : py_scope.
Notation "c ;;; k" := (bind c (fun _ => k))
  (at level 100, right associativity) : py_scope.
Local Open Scope py_scope.

(** [try: body / except Exception as e: h e].  Every value of [exn] is an
    instance of [Exception], so this is also the bare [except:]. *)
Definition try_except {A} (body : M A) (h : exn -> M A) : M A :=
  fun s => match body s with
           | (Ok a, s') => (Ok a, s')
           | (Raise e, s') => h e s'
           end.

Definition get : M State := fun s => (Ok s, s).

(** A vendor call that either returns or raises. *)
Definition call (o : State -> option exn) : M unit :=
  fun s => match o s with
           | None => (Ok tt, s)
           | Some e => (Raise e, s)
           end.

Definition call_result {A} (o : State -> result A) : M A :=
  fun s => (o s, s).

Definition add_log (r : log_record) (s : State) : State :=
  {| line_bot_api := line_bot_api s; handler := handler s;
     sheets_client := sheets_client s; appended := appended s;
     logs := logs s ++ [r] |}.

Definition logger (l : level) (m : string) (a : log_arg) : M unit :=
  fun s => (Ok tt, add_log {| levelname := l; msg := m; arg := a |} s).

Definition logger_info := logger INFO.
Definition logger_warning := logger WARNING.
Definition logger_error := logger ERROR.

(** Assignments to the module globals. *)
Definition set_line_bot_api (v : option LineBotApi) : M unit :=
  fun s => (Ok tt, {| line_bot_api := v; handler := handler s;
                      sheets_client := sheets_client s;
                      appended := appended s; logs := logs s |}).

Definition set_handler (v : option WebhookHandler) : M unit :=
  fun s => (Ok tt, {| line_bot_api := line_bot_api s; handler := v;
                      sheets_client := sheets_client s;
                      appended := appended s; logs := logs s |}).

Definition set_sheets_client (v : option SheetsClient) : M unit :=
  fun s => (Ok tt, {| line_bot_api := line_bot_api s; handler := handler s;
                      sheets_client := v;
                      appended := appended s; logs := logs s |}).

(** The effect of a completed [worksheet.append_row(row)]. *)
Definition add_row (ws : Worksheet) (row : list string) (s : State) : State :=
  {| line_bot_api := line_bot_api s; handler := handler s;
     sheets_client := sheets_client s;
     appended := appended s ++ [(ws, row)];
     logs := logs s |}.

Definition record_append (ws : Worksheet) (row : list string) : M unit :=
  fun s => (Ok tt, add_row ws row s).

(** ** Configuration (lines 19-25) *)

Record Config := {
  LINE_CHANNEL_ACCESS_TOKEN : option string;
  LINE_CHANNEL_SECRET : option string;
  GOOGLE_SPREADSHEET_ID : option string;
  GOOGLE_SHEET_NAME : string;
  GOOGLE_CREDENTIALS_JSON : option string
}.

(** [os.environ.get(k)] and [os.environ.get(k, d)]. *)
Definition environ_get (environ : gmap string string) (k : string) : option string :=
  environ !! k.

Definition environ_get_default (environ : gmap string string) (k d : string) : string :=
  default d (environ !! k).

Definition load_config (environ : gmap string string) : M Config :=
  let token := environ_get environ "LINE_CHANNEL_ACCESS_TOKEN" in
  let secret := environ_get environ "LINE_CHANNEL_SECRET" in
  let sheet_id := environ_get environ "GOOGLE_SPREADSHEET_ID" in
  let sheet_name := environ_get_default environ "GOOGLE_SHEET_NAME" "Sheet1" in
  let creds := environ_get environ "GOOGLE_CREDENTIALS_JSON" in
  ret {| LINE_CHANNEL_ACCESS_TOKEN := token;
         LINE_CHANNEL_SECRET := secret;
         GOOGLE_SPREADSHEET_ID := sheet_id;
         GOOGLE_SHEET_NAME := sheet_name;
         GOOGLE_CREDENTIALS_JSON := creds |}.

(** Truth value of an optional string: [None] and [""] are false. *)
Definition truthy (v : option string) : bool :=
  match v with
  | None => false
  | Some s => negb (String.eqb s "")
  end.

(** ** Signature check of the vendor dispatcher

    [SignatureValidator.validate] compares the header with the Base64 text
    of the HMAC-SHA256 digest of the body under the channel secret.  The
    digest is a field of [World]; the Base64 encoding is written out. *)

Definition b64_alphabet : string :=
  "ABCDEFGHIJKLMNOPQRSTUVWXYZabcdefghijklmnopqrstuvwxyz0123456789+/".

Definition b64_char (n : N) : ascii :=
  match String.get (N.to_nat n) b64_alphabet with
  | Some c => c
  | None => "="%char
  end.

Fixpoint b64encode (bs : list N) : string :=
  match bs with
  | [] => ""
  | [a] =>
      String (b64_char (a / 4))
        (String (b64_char ((a mod 4) * 16)) "==")
  | [a; b] =>
      String (b64_char (a / 4))
        (String (b64_char ((a mod 4) * 16 + b / 16))
           (String (b64_char ((b mod 16) * 4)) "="))
  | a :: b :: c :: rest =>
      String (b64_char (a / 4))
        (String (b64_char ((a mod 4) * 16 + b / 16))
           (String (b64_char ((b mod 16) * 4 + c / 64))
              (String (b64_char (c mod 64)) (b64encode rest))))
  end%N.

Definition validate (w : World) (h : WebhookHandler) (body signature : string) : bool :=
  String.eqb signature (b64encode (hmac_sha256 w (channel_secret h) body)).

(** ** HTTP requests and responses *)

Record Request := { headers : list (string * string); data : string }.

Inductive json : Type :=
| JStr (s : string)
| JBool (b : bool).

Inductive Body : Type :=
| Text (s : string)
| Json (o : gmap string json).

Record Response := { body : Body; status : nat }.

(** Header names compare without regard to letter case. *)
Definition lower_ascii (c : ascii) : ascii :=
  let n := nat_of_ascii c in
  if (65 <=? n)%nat && (n <=? 90)%nat then ascii_of_nat (n + 32) else c.

Fixpoint lower (s : string) : string :=
  match s with
  | EmptyString => EmptyString
  | String c r => String (lower_ascii c) (lower r)
  end.

Fixpoint headers_get (hs : list (string * string)) (name d : string) : string :=
  match hs with
  | [] => d
  | (k, v) :: r => if String.eqb (lower k) (lower name) then v else headers_get r name d
  end.

Definition get_data (req : Request) : string := data req.

(** ** The program *)

Section Program.

Context (w : World) (cfg : Config).

(** Lines 32-46. *)
Definition initialize_line_bot : M bool :=
  try_except
    (if truthy (LINE_CHANNEL_ACCESS_TOKEN cfg) && truthy (LINE_CHANNEL_SECRET cfg) then
       let token := default "" (LINE_CHANNEL_ACCESS_TOKEN cfg) in
       let secret := default "" (LINE_CHANNEL_SECRET cfg) in
       call (fun _ => LineBotApi_init w token) ;;;
       set_line_bot_api (Some {| channel_access_token := token |}) ;;;
       call (fun _ => WebhookHandler_init w secret) ;;;
       set_handler (Some {| channel_secret := secret; text_message_handler := false |}) ;;;
       logger_info "LINE Bot API initialized successfully" NoArg ;;;
       ret true
     else
       logger_error "LINE credentials not found" NoArg ;;;
       ret false)
    (fun e =>
       logger_error "Failed to initialize LINE Bot API: " (ExnArg e) ;;;
       ret false).

(** Lines 48-76. *)
Definition initialize_google_sheets : M bool :=
  try_except
    (if truthy (GOOGLE_CREDENTIALS_JSON cfg) then
       let blob := default "" (GOOGLE_CREDENTIALS_JSON cfg) in
       call (fun _ => json_loads w blob) ;;;
       call (fun _ => from_service_account_info w blob) ;;;
       call (fun _ => authorize w blob) ;;;
       set_sheets_client (Some {| credentials_info := blob |}) ;;;
       logger_info "Google Sheets API initialized successfully" NoArg ;;;
       ret true
     else
       logger_error "Google credentials not found" NoArg ;;;
       ret false)
    (fun e =>
       logger_error "Failed to initialize Google Sheets API: " (ExnArg e) ;;;
       ret false).

(** Lines 78-101. *)
Definition write_to_sheet (user_id display_name message_text : string) : M bool :=
  try_except
    (s <- get ;;
     match sheets_client s with
     | None =>
         logger_error "Google Sheets client not initialized" NoArg ;;;
         ret false
     | Some c =>
         let sheet := {| client := c; key := GOOGLE_SPREADSHEET_ID cfg |} in
         call (fun s => open_by_key w s c (GOOGLE_SPREADSHEET_ID cfg)) ;;;
         let ws := {| spreadsheet := sheet; title := GOOGLE_SHEET_NAME cfg |} in
         call (fun s => worksheet w s sheet (GOOGLE_SHEET_NAME cfg)) ;;;
         timestamp <- call_result (fun s => Ok (now_strftime w s)) ;;
         let row_data := [timestamp; user_id; display_name; message_text] in
         call (fun s => append_row w s ws row_data) ;;;
         record_append ws row_data ;;;
         logger_info "Data written to sheet: " (RowArg row_data) ;;;
         ret true
     end)
    (fun e =>
       logger_error "Failed to write to sheet: " (ExnArg e) ;;;
       ret false).

(** Lines 103-111. *)
Definition home : M Response :=
  s <- get ;;
  ret {| body := Json (<["message" := JStr "LINE to Sheets System is running on Render.com"]>
                       (<["status" := JStr "ok"]>
                       (<["line_configured" := JBool (bool_decide (line_bot_api s <> None))]>
                       (<["sheets_configured" := JBool (bool_decide (sheets_client s <> None))]>
                        ∅))));
         status := 200 |}.

(** Lines 113-116. *)
Definition health : M Response :=
  ret {| body := Json (<["status" := JStr "healthy"]> ∅); status := 200 |}.

(** Attribute reads of the handler (lines 145, 149-150, 155). *)
Definition getattr_user_id (src : option Source) : M string :=
  match src with
  | Some x => ret (user_id x)
  | None => raise AttributeError
  end.

Definition getattr_text (m : option TextMessage) : M string :=
  match m with
  | Some x => ret (text x)
  | None => raise AttributeError
  end.

(** [line_bot_api.get_profile(user_id)] on the global, which may be [None]. *)
Definition line_bot_api_get_profile (uid : string) : M Profile :=
  s <- get ;;
  match line_bot_api s with
  | None => raise AttributeError
  | Some api => call_result (fun s => get_profile w s api uid)
  end.

(** Lines 141-166. *)
Definition handle_text_message (event : MessageEvent) : M unit :=
  try_except
    (uid <- getattr_user_id (source event) ;;
     name <- try_except
               (profile <- line_bot_api_get_profile uid ;;
                ret (display_name profile))
               (fun _ => ret "Unknown User") ;;
     message_text <- getattr_text (message event) ;;
     success <- write_to_sheet uid name message_text ;;
     if success : bool then
       logger_info "Message processed successfully: " (TextArg message_text)
     else
       logger_error "Failed to process message: " (TextArg message_text))
    (fun e => logger_error "Error handling message: " (ExnArg e)).

(** The vendor dispatcher [WebhookHandler.handle]: check the signature,
    parse the payload, then call the handler added for each event in
    order.  An exception raised by a handler leaves the loop. *)
Definition dispatch_event (h : WebhookHandler) (ev : Event) : M unit :=
  match ev with
  | TextMessageEvent event =>
      if text_message_handler h then handle_text_message event else ret tt
  | OtherEvent => ret tt
  end.

Fixpoint dispatch (h : WebhookHandler) (evs : list Event) : M unit :=
  match evs with
  | [] => ret tt
  | ev :: rest => dispatch_event h ev ;;; dispatch h rest
  end.

Definition WebhookHandler_handle (h : WebhookHandler) (body signature : string) : M unit :=
  if validate w h body signature then
    evs <- call_result (fun _ => parse_events w body) ;;
    dispatch h evs
  else raise InvalidSignatureError.

(** Lines 118-138. *)
Definition webhook (req : Request) : M (string * nat) :=
  try_except
    (let signature := headers_get (headers req) "X-Line-Signature" "" in
     let body := get_data req in
     s <- get ;;
     match handler s with
     | None =>
         logger_error "LINE handler not initialized" NoArg ;;;
         ret ("LINE handler not initialized", 500%nat)
     | Some h =>
         WebhookHandler_handle h body signature ;;;
         ret ("OK", 200%nat)
     end)
    (fun e =>
       match e with
       | InvalidSignatureError =>
           logger_error "Invalid signature" NoArg ;;;
           ret ("Invalid signature", 400%nat)
       | _ =>
           logger_error "Webhook error: " (ExnArg e) ;;;
           ret ("Internal server error", 500%nat)
       end).

(** [handler.add(MessageEvent, message=TextMessage)] applied to
    [handle_text_message] (line 140): an attribute read on the global
    [handler], then the registration on that object. *)
Definition handler_add : M unit :=
  s <- get ;;
  match handler s with
  | None => raise AttributeError
  | Some h =>
      set_handler (Some {| channel_secret := channel_secret h;
                           text_message_handler := true |})
  end.

End Program.

(** ** Module load

    The statements of the module in source order: configuration
    (19-25), the three globals (28-30), the definitions and route
    registrations (32-138, no effect on [State]), the registration of the
    text-message handler (140), and the initialization branch (169-190).
    [is_main] is [__name__ == '__main__']; that branch is followed up to the
    start of the HTTP server. *)
Definition module_load (w : World) (environ : gmap string string) (is_main : bool) : M Config :=
  cfg <- load_config environ ;;
  set_line_bot_api None ;;;
  set_handler None ;;;
  set_sheets_client None ;;;
  handler_add ;;;
  line_initialized <- initialize_line_bot w cfg ;;
  sheets_initialized <- initialize_google_sheets w cfg ;;
  (if is_main then
     (if line_initialized : bool then logger_info "LINE Bot API: Initialized" NoArg
      else logger_warning "LINE Bot API: Failed to initialize" NoArg) ;;;
     (if sheets_initialized : bool then logger_info "Google Sheets API: Initialized" NoArg
      else logger_warning "Google Sheets API: Failed to initialize" NoArg)
   else ret tt) ;;;
  ret cfg.

(** The worksheet the writer targets through client [c]. *)
Definition target_worksheet (cfg : Config) (c : SheetsClient) : Worksheet :=
  {| spreadsheet := {| client := c; key := GOOGLE_SPREADSHEET_ID cfg |};
     title := GOOGLE_SHEET_NAME cfg |}.

(** The first exception among the three remote calls of the writer, in
    call order; [None] when all three return. *)
Definition write_exn (w : World) (cfg : Config) (c : SheetsClient) (s : State)
    (row : list string) : option exn :=
  match open_by_key w s c (GOOGLE_SPREADSHEET_ID cfg) with
  | Some e => Some e
  | None =>
      match worksheet w s (spreadsheet (target_worksheet cfg c)) (GOOGLE_SHEET_NAME cfg) with
      | Some e => Some e
      | None => append_row w s (target_worksheet cfg c) row
      end
  end.

Definition rec (l : level) (m : string) (a : log_arg) : log_record :=
  {| levelname := l; msg := m; arg := a |}.

(** The name the handler writes for sender [uid] in state [s]: the display
    name of the profile when the lookup returns, the sentinel otherwise. *)
Definition resolved_name (w : World) (s : State) (uid : string) : string :=
  match line_bot_api s with
  | None => "Unknown User"
  | Some api =>
      match get_profile w s api uid with
      | Ok p => display_name p
      | Raise _ => "Unknown User"
      end
  end.

(** ** Concrete inputs

    A family of environments in which every vendor call returns, except
    as chosen by the four arguments; a configuration; states before and
    after a complete initialization; an event. *)
Definition world_with (profile : result Profile) (append handler_init : option exn)
    (events : result (list Event)) : World :=
  {| LineBotApi_init := fun _ => None;
     WebhookHandler_init := fun _ => handler_init;
     json_loads := fun _ => None;
     from_service_account_info := fun _ => None;
     authorize := fun _ => None;
     get_profile := fun _ _ _ => profile;
     open_by_key := fun _ _ _ => None;
     worksheet := fun _ _ _ => None;
     append_row := fun _ _ _ => append;
     now_strftime := fun _ => "2024-05-01 12:00:00";
     parse_events := fun _ => events;
     hmac_sha256 := fun _ _ => repeat 0%N 32;
     hmac_sha256_length := fun _ _ => eq_refl |}.

Definition example_cfg : Config :=
  {| LINE_CHANNEL_ACCESS_TOKEN := Some "token";
     LINE_CHANNEL_SECRET := Some "secret";
     GOOGLE_SPREADSHEET_ID := Some "sheet-id";
     GOOGLE_SHEET_NAME := "Sheet1";
     GOOGLE_CREDENTIALS_JSON := Some "{}" |}.

Definition fresh_state : State :=
  {| line_bot_api := None; handler := None; sheets_client := None;
     appended := []; logs := [] |}.

Definition ready_state : State :=
  {| line_bot_api := Some {| channel_access_token := "token" |};
     handler := Some {| channel_secret := "secret"; text_message_handler := true |};
     sheets_client := Some {| credentials_info := "{}" |};
     appended := []; logs := [] |}.

Definition example_event : MessageEvent :=
  {| source := Some {| user_id := "U123" |};
     message := Some {| text := "hello" |} |}.

Definition alice : result Profile := Ok {| display_name := "Alice" |}.

(** The header that passes the check in [world_with]: the Base64 text of
    thirty-two zero bytes. *)
Definition zero_signature : string :=
  Eval vm_compute in b64encode (repeat 0%N 32).

Definition signed_request : Request :=
  {| headers := [("Content-Type", "application/json");
                 ("x-line-signature", zero_signature)];
     data := "{}" |}.

Definition unsigned_request : Request :=
  {| headers := [("Content-Type", "application/json")]; data := "{}" |}.

(** ** Notions used to state what request handling preserves *)

(** The three module globals agree in two states. *)
Definition same_handles (s s' : State) : Prop :=
  line_bot_api s = line_bot_api s' /\
  handler s = handler s' /\
  sheets_client s = sheets_client s'.

(** [s'] is [s] with at most [n] rows appended and possibly more log
    records; the globals agree. *)
Definition grows (n : nat) (s s' : State) : Prop :=
  same_handles s s' /\
  (exists new, appended s' = (appended s ++ new)%list /\ (length new <= n)%nat) /\
  (exists l, logs s' = (logs s ++ l)%list).

Fixpoint count_text_events (evs : list Event) : nat :=
  match evs with
  | [] => 0
  | TextMessageEvent _ :: rest => S (count_text_events rest)
  | OtherEvent :: rest => count_text_events rest
  end.

(** A spreadsheet service on which no call of the writer ever raises. *)
Definition reliable_sheets (w : World) : Prop :=
  (forall s c k, open_by_key w s c k = None) /\
  (forall s sh t, worksheet w s sh t = None) /\
  (forall s ws row, append_row w s ws row = None).

(** Second and fourth column of an appended row. *)
Definition sender_and_text (r : Worksheet * list string) : option string * option string :=
  (snd r !! 1%nat, snd r !! 3%nat).

Definition fields_of (ev : MessageEvent) : option string * option string :=
  (user_id <$> source ev, text <$> message ev).

(** * Properties *)

(** Unfolding of the monad's combinators, to run a computation on a state. *)
Ltac run :=
  unfold bind, try_except, ret, raise, get, call, call_result,
    logger_info, logger_warning, logger_error, logger,
    set_line_bot_api, set_handler, set_sheets_client, record_append;
  simpl.

(** ** The model on small inputs *)

Example b64encode_Man : b64encode [77; 97; 110]%N = "TWFu".
Proof. reflexivity. Qed.

Example b64encode_Ma : b64encode [77; 97]%N = "TWE=".
Proof. reflexivity. Qed.

Example b64encode_M : b64encode [77]%N = "TQ==".
Proof. reflexivity. Qed.

Example headers_get_any_case :
  headers_get (headers signed_request) "X-Line-Signature" "" = zero_signature.
Proof. reflexivity. Qed.

Example truthy_empty : truthy (Some "") = false /\ truthy None = false.
Proof. split; reflexivity. Qed.

(** A payload of two events whose first append fails and second succeeds:
    both events are handled, only the second row reaches the worksheet. *)
Example second_event_after_failed_append :
  let w := {| LineBotApi_init := fun _ => None;
              WebhookHandler_init := fun _ => None;
              json_loads := fun _ => None;
              from_service_account_info := fun _ => None;
              authorize := fun _ => None;
              get_profile := fun _ _ _ => alice;
              open_by_key := fun _ _ _ => None;
              worksheet := fun _ _ _ => None;
              append_row := fun s _ _ =>
                match logs s with
                | [] => Some (OtherException "APIError")
                | _ => None
                end;
              now_strftime := fun _ => "2024-05-01 12:00:00";
              parse_events := fun _ =>
                Ok [TextMessageEvent example_event;
                    TextMessageEvent {| source := Some {| user_id := "U456" |};
                                        message := Some {| text := "bye" |} |}];
              hmac_sha256 := fun _ _ => repeat 0%N 32;
              hmac_sha256_length := fun _ _ => eq_refl |} in
  let out := webhook w example_cfg signed_request ready_state in
  fst out = Ok ("OK", 200%nat) /\
  map snd (appended (snd out)) = [["2024-05-01 12:00:00"; "U456"; "Alice"; "bye"]] /\
  map levelname (logs (snd out)) = [ERROR; ERROR; INFO; INFO].
Proof. repeat split. Qed.

(** ** Startup *)

(** Neither initializer raises, whatever the vendor calls do. *)
Lemma initialize_line_bot_returns w cfg s :
  exists b s', initialize_line_bot w cfg s = (Ok b, s').
Proof.
  unfold initialize_line_bot. run.
  destruct (truthy (LINE_CHANNEL_ACCESS_TOKEN cfg) && truthy (LINE_CHANNEL_SECRET cfg));
    simpl; [|eauto].
  destruct (LineBotApi_init w _); simpl; [eauto|].
  destruct (WebhookHandler_init w _); simpl; eauto.
Qed.

Lemma initialize_google_sheets_returns w cfg s :
  exists b s', initialize_google_sheets w cfg s = (Ok b, s').
Proof.
  unfold initialize_google_sheets. run.
  destruct (truthy (GOOGLE_CREDENTIALS_JSON cfg)); simpl; [|eauto].
  destruct (json_loads w _); simpl; [eauto|].
  destruct (from_service_account_info w _); simpl; [eauto|].
  destruct (authorize w _); simpl; eauto.
Qed.

(** The registration at line 140 runs on whatever [handler] holds. *)
Lemma handler_add_None s :
  handler s = None -> handler_add s = (Raise AttributeError, s).
Proof. intros H. unfold handler_add. run. by rewrite H. Qed.

(** C1 (as the code behaves).  Loading the module raises [AttributeError]
    for every environment, every behaviour of the vendor libraries and both
    ways of starting the process: the decorator of line 140 reads the
    attribute [add] of the global [handler], which is still [None] because
    the initializers run only at lines 171 and 189.  No log record is
    written and no initializer is reached. *)
Theorem module_load_raises w environ is_main s :
  fst (module_load w environ is_main s) = Raise AttributeError /\
  logs (snd (module_load w environ is_main s)) = logs s /\
  handler (snd (module_load w environ is_main s)) = None.
Proof. unfold module_load, load_config, handler_add. run. done. Qed.

(** C7.  Reading the configuration returns for every environment and
    leaves the state alone; each value is the environment's entry, [None]
    when absent, except the sheet name, which is ["Sheet1"] when absent and
    the entry itself (even an empty one) when present. *)
Theorem load_config_returns (environ : gmap string string) s :
  exists cfg,
    load_config environ s = (Ok cfg, s) /\
    LINE_CHANNEL_ACCESS_TOKEN cfg = environ !! "LINE_CHANNEL_ACCESS_TOKEN" /\
    LINE_CHANNEL_SECRET cfg = environ !! "LINE_CHANNEL_SECRET" /\
    GOOGLE_SPREADSHEET_ID cfg = environ !! "GOOGLE_SPREADSHEET_ID" /\
    GOOGLE_CREDENTIALS_JSON cfg = environ !! "GOOGLE_CREDENTIALS_JSON" /\
    (environ !! "GOOGLE_SHEET_NAME" = None -> GOOGLE_SHEET_NAME cfg = "Sheet1") /\
    (forall v, environ !! "GOOGLE_SHEET_NAME" = Some v -> GOOGLE_SHEET_NAME cfg = v).
Proof.
  eexists. split; [reflexivity|]. simpl.
  unfold environ_get, environ_get_default.
  repeat split; try reflexivity.
  - intros ->. reflexivity.
  - intros v ->. reflexivity.
Qed.

(** ** Liveness routes *)

(** C8.  [/] and [/health] answer 200 in every state and leave the state
    as it was (no append, no log record, no change of a handle); neither
    takes the vendor environment as an argument.  In the body of [/],
    [line_configured] is true exactly when [line_bot_api] is not [None], and
    [sheets_configured] exactly when [sheets_client] is not [None]. *)
Theorem home_health_200 s :
  (exists o lc sc,
      home s = (Ok {| body := Json o; status := 200 |}, s) /\
      o !! "line_configured" = Some (JBool lc) /\
      o !! "sheets_configured" = Some (JBool sc) /\
      (lc = true <-> line_bot_api s <> None) /\
      (sc = true <-> sheets_client s <> None)) /\
  (exists o, health s = (Ok {| body := Json o; status := 200 |}, s)).
Proof.
  split.
  - do 3 eexists. split; [reflexivity|].
    split; [by simplify_map_eq|]. split; [by simplify_map_eq|].
    split; apply bool_decide_eq_true.
  - eexists. reflexivity.
Qed.

(** ** Sheet writer *)

(** The writer run on a state, case by case. *)
Lemma write_to_sheet_eq w cfg u d t s :
  write_to_sheet w cfg u d t s =
  match sheets_client s with
  | None => (Ok false, add_log (rec ERROR "Google Sheets client not initialized" NoArg) s)
  | Some c =>
      let row := [now_strftime w s; u; d; t] in
      match write_exn w cfg c s row with
      | Some e => (Ok false, add_log (rec ERROR "Failed to write to sheet: " (ExnArg e)) s)
      | None =>
          (Ok true, add_log (rec INFO "Data written to sheet: " (RowArg row))
                      (add_row (target_worksheet cfg c) row s))
      end
  end.
Proof.
  unfold write_to_sheet, write_exn, target_worksheet. run.
  destruct (sheets_client s) as [c|]; simpl; [|reflexivity].
  destruct (open_by_key w s c _); simpl; [reflexivity|].
  destruct (worksheet w s _ _); simpl; [reflexivity|].
  destruct (append_row w s _ _); reflexivity.
Qed.

Lemma write_to_sheet_returns w cfg u d t s :
  exists b s', write_to_sheet w cfg u d t s = (Ok b, s').
Proof.
  rewrite write_to_sheet_eq.
  destruct (sheets_client s) as [c|]; simpl; [|eauto].
  destruct (write_exn w cfg c s _); eauto.
Qed.

(** C5.  The writer returns a boolean on every input and state, so no
    exception reaches its caller.  It returns [false] when the client is
    [None] and when opening the spreadsheet, selecting the worksheet or the
    remote append raises; a [false] result leaves the worksheet as it was and
    adds one record at level ERROR.  It returns [true] only with the row
    appended. *)
Theorem write_to_sheet_never_raises w cfg u d t s :
  exists b s',
    write_to_sheet w cfg u d t s = (Ok b, s') /\
    (sheets_client s = None -> b = false) /\
    (forall c, sheets_client s = Some c ->
       let ws := target_worksheet cfg c in
       let row := [now_strftime w s; u; d; t] in
       (open_by_key w s c (GOOGLE_SPREADSHEET_ID cfg) <> None \/
        worksheet w s (spreadsheet ws) (title ws) <> None \/
        append_row w s ws row <> None -> b = false) /\
       (b = true -> appended s' = (appended s ++ [(ws, row)])%list)) /\
    (b = false ->
       appended s' = appended s /\
       exists m a, logs s' = (logs s ++ [rec ERROR m a])%list).
Proof.
  rewrite write_to_sheet_eq. unfold write_exn.
  destruct (sheets_client s) as [c|] eqn:Hc; simpl.
  - destruct (open_by_key w s c _) as [e|] eqn:Ho; simpl.
    { do 2 eexists. split; [reflexivity|]. split; [done|]. split.
      - intros c' [= <-]. split; [done|]. done.
      - intros _. split; [done|]. eauto. }
    destruct (worksheet w s _ _) as [e|] eqn:Hw; simpl.
    { do 2 eexists. split; [reflexivity|]. split; [done|]. split.
      - intros c' [= <-]. split; done.
      - intros _. split; [done|]. eauto. }
    destruct (append_row w s _ _) as [e|] eqn:Ha; simpl.
    { do 2 eexists. split; [reflexivity|]. split; [done|]. split.
      - intros c' [= <-]. split; done.
      - intros _. split; [done|]. eauto. }
    do 2 eexists. split; [reflexivity|]. split; [done|]. split.
    + intros c' [= <-]. split; [|done].
      unfold target_worksheet in *. simpl in *.
      intros [H|[H|H]]; congruence.
    + done.
  - do 2 eexists. split; [reflexivity|]. split; [done|]. split; [done|].
    intros _. split; [done|]. eauto.
Qed.

(** ** Message handler *)

(** The handler run on an event that carries both fields. *)
Lemma handle_text_message_eq w cfg ev s src m :
  source ev = Some src -> message ev = Some m ->
  handle_text_message w cfg ev s =
  let name := resolved_name w s (user_id src) in
  match write_to_sheet w cfg (user_id src) name (text m) s with
  | (Ok true, s1) =>
      (Ok tt, add_log (rec INFO "Message processed successfully: " (TextArg (text m))) s1)
  | (Ok false, s1) =>
      (Ok tt, add_log (rec ERROR "Failed to process message: " (TextArg (text m))) s1)
  | (Raise e, s1) =>
      (Ok tt, add_log (rec ERROR "Error handling message: " (ExnArg e)) s1)
  end.
Proof.
  intros Hs Hm. unfold handle_text_message, line_bot_api_get_profile, resolved_name.
  rewrite Hs, Hm. run.
  destruct (line_bot_api s) as [api|]; simpl.
  - destruct (get_profile w s api (user_id src)) as [p|e]; simpl;
      destruct (write_to_sheet w cfg _ _ _ s) as [[[]|] ?]; reflexivity.
  - destruct (write_to_sheet w cfg _ _ _ s) as [[[]|] ?]; reflexivity.
Qed.

(** An event without sender or without message: one ERROR record, nothing
    else. *)
Lemma handle_text_message_malformed w cfg ev s :
  source ev = None \/ message ev = None ->
  handle_text_message w cfg ev s =
  (Ok tt, add_log (rec ERROR "Error handling message: " (ExnArg AttributeError)) s).
Proof.
  unfold handle_text_message, line_bot_api_get_profile. run.
  destruct (source ev) as [src|]; simpl.
  - intros [?|Hm]; [done|]. rewrite Hm.
    destruct (line_bot_api s) as [api|]; simpl; [|reflexivity].
    destruct (get_profile w s api (user_id src)); reflexivity.
  - reflexivity.
Qed.

Lemma handle_text_message_returns w cfg ev s :
  fst (handle_text_message w cfg ev s) = Ok tt.
Proof.
  destruct (source ev) as [src|] eqn:Hs; [destruct (message ev) as [m|] eqn:Hm|].
  - rewrite (handle_text_message_eq _ _ _ _ _ _ Hs Hm). simpl.
    destruct (write_to_sheet w cfg _ _ _ s) as [[[]|] ?]; reflexivity.
  - rewrite handle_text_message_malformed; auto.
  - rewrite handle_text_message_malformed; auto.
Qed.

(** The dispatcher loop never stops early on text-message events: the
    handler is run on each of them, in order. *)
Lemma dispatch_text_events w cfg h evs s :
  text_message_handler h = true ->
  dispatch w cfg h (map TextMessageEvent evs) s =
  (Ok tt, foldl (fun s ev => snd (handle_text_message w cfg ev s)) s evs).
Proof.
  intros Hh. revert s. induction evs as [|ev evs IH]; intros s; [reflexivity|].
  simpl. unfold bind at 1. rewrite Hh.
  pose proof (handle_text_message_returns w cfg ev s) as Hr.
  destruct (handle_text_message w cfg ev s) as [r s1]. simpl in Hr. subst r.
  simpl. apply IH.
Qed.

(** C3 (as the code behaves).  On an event carrying sender id [u] and
    text [t] the handler appends at most one row.  When the spreadsheet
    client is set and opening the spreadsheet, selecting the worksheet and the
    remote append all return, it appends exactly the row
    [[timestamp; u; name; t]], in that column order, where [name] is the
    resolved display name or ["Unknown User"]; when the client is [None] or
    one of the three calls raises, it appends nothing. *)
Theorem handle_text_message_row w cfg ev s src m :
  source ev = Some src -> message ev = Some m ->
  let s' := snd (handle_text_message w cfg ev s) in
  let row := [now_strftime w s; user_id src; resolved_name w s (user_id src); text m] in
  (forall c, sheets_client s = Some c -> write_exn w cfg c s row = None ->
     appended s' = (appended s ++ [(target_worksheet cfg c, row)])%list) /\
  (sheets_client s = None -> appended s' = appended s) /\
  (forall c e, sheets_client s = Some c -> write_exn w cfg c s row = Some e ->
     appended s' = appended s).
Proof.
  intros Hs Hm. simpl.
  rewrite (handle_text_message_eq _ _ _ _ _ _ Hs Hm). simpl.
  rewrite write_to_sheet_eq.
  repeat split.
  - intros c Hc He. rewrite Hc. simpl. rewrite He. reflexivity.
  - intros Hc. rewrite Hc. reflexivity.
  - intros c e Hc He. rewrite Hc. simpl. rewrite He. reflexivity.
Qed.

Lemma handle_text_message_row_witness :
  appended (snd (handle_text_message (world_with alice None None (Ok []))
                   example_cfg example_event ready_state)) =
  [(target_worksheet example_cfg {| credentials_info := "{}" |},
    ["2024-05-01 12:00:00"; "U123"; "Alice"; "hello"])].
Proof.
  exact (proj1 (handle_text_message_row (world_with alice None None (Ok []))
                  example_cfg example_event ready_state _ _ eq_refl eq_refl)
           _ eq_refl eq_refl).
Defined.

(** With every handle initialized, a remote append that raises leaves the
    worksheet without the row of the event. *)
Lemma handle_text_message_no_row :
  ~ exists ws ts name,
      appended (snd (handle_text_message
                       (world_with alice (Some (OtherException "APIError")) None (Ok []))
                       example_cfg example_event ready_state)) =
      (appended ready_state ++ [(ws, [ts; "U123"; name; "hello"])])%list.
Proof. intros (ws & ts & name & H). vm_compute in H. discriminate H. Qed.

(** C4.  When the profile lookup raises, for whatever reason, the handler
    does not raise: it calls the writer with the sender id, the name
    ["Unknown User"] and the text, and ends with the record that reports the
    writer's result. *)
Theorem profile_failure_uses_sentinel w cfg ev s src m e :
  source ev = Some src -> message ev = Some m ->
  fst (line_bot_api_get_profile w (user_id src) s) = Raise e ->
  exists b s1,
    write_to_sheet w cfg (user_id src) "Unknown User" (text m) s = (Ok b, s1) /\
    handle_text_message w cfg ev s =
    (Ok tt,
     add_log (if b then rec INFO "Message processed successfully: " (TextArg (text m))
              else rec ERROR "Failed to process message: " (TextArg (text m))) s1).
Proof.
  intros Hs Hm He.
  assert (resolved_name w s (user_id src) = "Unknown User") as Hn.
  { revert He. unfold line_bot_api_get_profile, resolved_name. run.
    destruct (line_bot_api s) as [api|]; simpl; [|done].
    destruct (get_profile w s api (user_id src)); simpl; [discriminate|done]. }
  rewrite (handle_text_message_eq _ _ _ _ _ _ Hs Hm). simpl. rewrite Hn.
  destruct (write_to_sheet_returns w cfg (user_id src) "Unknown User" (text m) s)
    as (b & s1 & Hw).
  exists b, s1. split; [exact Hw|]. rewrite Hw. by destruct b.
Qed.

Lemma profile_failure_uses_sentinel_witness :
  exists b s1,
    write_to_sheet (world_with alice None None (Ok [])) example_cfg
      "U123" "Unknown User" "hello" fresh_state = (Ok b, s1) /\
    handle_text_message (world_with alice None None (Ok [])) example_cfg
      example_event fresh_state =
    (Ok tt,
     add_log (if b then rec INFO "Message processed successfully: " (TextArg "hello")
              else rec ERROR "Failed to process message: " (TextArg "hello")) s1).
Proof.
  exact (profile_failure_uses_sentinel (world_with alice None None (Ok []))
           example_cfg example_event fresh_state _ _ AttributeError
           eq_refl eq_refl eq_refl).
Defined.

(** A lookup that raises while the write succeeds leaves two records, both
    at level INFO: the failure of the lookup is not logged. *)
Lemma profile_failure_not_logged :
  let w := world_with (Raise (OtherException "LineBotApiError")) None None (Ok []) in
  let s' := snd (handle_text_message w example_cfg example_event ready_state) in
  fst (line_bot_api_get_profile w "U123" ready_state) =
    Raise (OtherException "LineBotApiError") /\
  logs s' =
    [rec INFO "Data written to sheet: "
       (RowArg ["2024-05-01 12:00:00"; "U123"; "Unknown User"; "hello"]);
     rec INFO "Message processed successfully: " (TextArg "hello")] /\
  ~ exists r, r ∈ logs s' /\ levelname r <> INFO.
Proof.
  split; [reflexivity|]. split; [reflexivity|].
  intros (r & Hin & Hl). vm_compute in Hin.
  apply elem_of_cons in Hin as [->|Hin]; [by apply Hl|].
  apply elem_of_cons in Hin as [->|Hin]; [by apply Hl|].
  by apply elem_of_nil in Hin.
Qed.

Lemma resolved_name_sentinel w s uid e :
  fst (line_bot_api_get_profile w uid s) = Raise e ->
  resolved_name w s uid = "Unknown User".
Proof.
  unfold line_bot_api_get_profile, resolved_name. run.
  destruct (line_bot_api s) as [api|]; simpl; [|done].
  destruct (get_profile w s api uid); simpl; [discriminate|done].
Qed.

Lemma dispatch_event_returns w cfg h ev s :
  fst (dispatch_event w cfg h ev s) = Ok tt.
Proof.
  destruct ev as [event|]; simpl; [|reflexivity].
  destruct (text_message_handler h); [apply handle_text_message_returns|reflexivity].
Qed.

(** The dispatcher loop reaches every event of a payload, whatever
    dispatcher it runs on. *)
Lemma dispatch_all w cfg h evs s :
  dispatch w cfg h evs s =
  (Ok tt, foldl (fun s ev => snd (dispatch_event w cfg h ev s)) s evs).
Proof.
  revert s. induction evs as [|ev evs IH]; intros s; [reflexivity|].
  change (dispatch w cfg h (ev :: evs) s) with
    (match dispatch_event w cfg h ev s with
     | (Ok _, s1) => dispatch w cfg h evs s1
     | (Raise e, s1) => (Raise e, s1)
     end).
  pose proof (dispatch_event_returns w cfg h ev s) as Hr.
  destruct (dispatch_event w cfg h ev s) as [r s1] eqn:He. simpl in Hr. subst r.
  cbn [foldl]. rewrite He. apply IH.
Qed.

(** C6 (as the code behaves).  The handler returns on every event and
    state, so the dispatcher loop, on every dispatcher and every payload,
    reaches each event in order: a failure on one event never stops the
    events after it.  A missing sender or message is logged at level ERROR
    with the exception, and a failed write is logged at level ERROR with the
    text.  A profile lookup that raises is replaced by ["Unknown User"]
    without a log record: the handler then writes exactly the writer's record
    and its own result record, and when the write succeeds both are at level
    INFO. *)
Theorem handle_text_message_never_raises w cfg :
  (forall ev s, fst (handle_text_message w cfg ev s) = Ok tt) /\
  (forall h evs s,
     dispatch w cfg h evs s =
     (Ok tt, foldl (fun s ev => snd (dispatch_event w cfg h ev s)) s evs)) /\
  (forall ev s, source ev = None \/ message ev = None ->
     logs (snd (handle_text_message w cfg ev s)) =
     (logs s ++ [rec ERROR "Error handling message: " (ExnArg AttributeError)])%list) /\
  (forall ev s src m, source ev = Some src -> message ev = Some m ->
     fst (write_to_sheet w cfg (user_id src) (resolved_name w s (user_id src)) (text m) s)
       = Ok false ->
     exists l, logs (snd (handle_text_message w cfg ev s)) =
               (l ++ [rec ERROR "Failed to process message: " (TextArg (text m))])%list) /\
  (forall ev s src m e, source ev = Some src -> message ev = Some m ->
     fst (line_bot_api_get_profile w (user_id src) s) = Raise e ->
     let s' := snd (handle_text_message w cfg ev s) in
     let row := [now_strftime w s; user_id src; "Unknown User"; text m] in
     (sheets_client s = None ->
      logs s' =
      (logs s ++ [rec ERROR "Google Sheets client not initialized" NoArg;
                  rec ERROR "Failed to process message: " (TextArg (text m))])%list) /\
     (forall c e', sheets_client s = Some c -> write_exn w cfg c s row = Some e' ->
      logs s' =
      (logs s ++ [rec ERROR "Failed to write to sheet: " (ExnArg e');
                  rec ERROR "Failed to process message: " (TextArg (text m))])%list) /\
     (forall c, sheets_client s = Some c -> write_exn w cfg c s row = None ->
      logs s' =
      (logs s ++ [rec INFO "Data written to sheet: " (RowArg row);
                  rec INFO "Message processed successfully: " (TextArg (text m))])%list)).
Proof.
  split; [apply handle_text_message_returns|].
  split; [apply dispatch_all|].
  split; [|split].
  - intros ev s H. by rewrite handle_text_message_malformed.
  - intros ev s src m Hs Hm Hw.
    rewrite (handle_text_message_eq _ _ _ _ _ _ Hs Hm). simpl.
    destruct (write_to_sheet w cfg _ _ _ s) as [r s1]. simpl in Hw. subst r.
    simpl. eauto.
  - intros ev s src m e Hs Hm He. simpl.
    rewrite (handle_text_message_eq _ _ _ _ _ _ Hs Hm). simpl.
    rewrite (resolved_name_sentinel _ _ _ _ He), write_to_sheet_eq.
    split; [|split].
    + intros Hc. rewrite Hc. simpl. by rewrite <- app_assoc.
    + intros c e' Hc Hx. rewrite Hc. simpl. rewrite Hx. simpl. by rewrite <- app_assoc.
    + intros c Hc Hx. rewrite Hc. simpl. rewrite Hx. simpl. by rewrite <- app_assoc.
Qed.

(** ** Webhook endpoint *)

Lemma b64encode_nonempty bs : bs <> [] -> b64encode bs <> "".
Proof. destruct bs as [|a [|b [|c rest]]]; simpl; done. Qed.

(** The empty signature never passes the check: the expected text encodes
    thirty-two bytes. *)
Lemma validate_empty w h body : validate w h body "" = false.
Proof.
  unfold validate.
  pose proof (hmac_sha256_length w (channel_secret h) body) as Hl.
  destruct (hmac_sha256 w (channel_secret h) body) as [|a bs]; [discriminate Hl|].
  assert (b64encode (a :: bs) <> "") as Hne by by apply b64encode_nonempty.
  destruct (b64encode (a :: bs)); [done|reflexivity].
Qed.

Lemma headers_get_absent hs name d :
  (forall k v, (k, v) ∈ hs -> lower k <> lower name) ->
  headers_get hs name d = d.
Proof.
  induction hs as [|[k v] hs IH]; intros H; [reflexivity|].
  simpl. destruct (String.eqb_spec (lower k) (lower name)) as [Heq|_].
  - exfalso. exact (H k v (list_elem_of_here _ _) Heq).
  - apply IH. intros k' v' Hin. apply (H k' v'). by apply list_elem_of_further.
Qed.

Lemma handle_invalid w cfg h body sig s :
  validate w h body sig = false ->
  WebhookHandler_handle w cfg h body sig s = (Raise InvalidSignatureError, s).
Proof. intros H. unfold WebhookHandler_handle. by rewrite H. Qed.

(** The endpoint run on a state, in terms of the dispatcher's outcome. *)
Lemma webhook_eq w cfg req s :
  webhook w cfg req s =
  match handler s with
  | None =>
      (Ok ("LINE handler not initialized", 500%nat),
       add_log (rec ERROR "LINE handler not initialized" NoArg) s)
  | Some h =>
      match WebhookHandler_handle w cfg h (get_data req)
              (headers_get (headers req) "X-Line-Signature" "") s with
      | (Ok _, s1) => (Ok ("OK", 200%nat), s1)
      | (Raise InvalidSignatureError, s1) =>
          (Ok ("Invalid signature", 400%nat), add_log (rec ERROR "Invalid signature" NoArg) s1)
      | (Raise e, s1) =>
          (Ok ("Internal server error", 500%nat),
           add_log (rec ERROR "Webhook error: " (ExnArg e)) s1)
      end
  end.
Proof.
  unfold webhook. run.
  destruct (handler s) as [h|]; simpl; [|reflexivity].
  destruct (WebhookHandler_handle w cfg h _ _ s) as [[[]|[]] s1]; reflexivity.
Qed.

(** C2.  The response of POST [/webhook], for every request and state:
    500 ["LINE handler not initialized"] when [handler] is [None]; otherwise
    400 ["Invalid signature"] when the dispatcher raises
    [InvalidSignatureError], which it does when the signature check fails;
    500 ["Internal server error"] when it raises any other exception; and
    200 ["OK"] when it returns. *)
Theorem webhook_response w cfg req s :
  (handler s = None ->
   fst (webhook w cfg req s) = Ok ("LINE handler not initialized", 500%nat)) /\
  (forall h, handler s = Some h ->
     let signature := headers_get (headers req) "X-Line-Signature" "" in
     let r := fst (WebhookHandler_handle w cfg h (get_data req) signature s) in
     (validate w h (get_data req) signature = false -> r = Raise InvalidSignatureError) /\
     (r = Raise InvalidSignatureError ->
      fst (webhook w cfg req s) = Ok ("Invalid signature", 400%nat)) /\
     (forall e, r = Raise e -> e <> InvalidSignatureError ->
      fst (webhook w cfg req s) = Ok ("Internal server error", 500%nat)) /\
     (r = Ok tt -> fst (webhook w cfg req s) = Ok ("OK", 200%nat))).
Proof.
  rewrite webhook_eq. split.
  - intros ->. reflexivity.
  - intros h ->. simpl. split; [intros Hv; by rewrite handle_invalid|].
    destruct (WebhookHandler_handle w cfg h _ _ s) as [[[]|e] s1]; simpl.
    + repeat split; try done.
    + repeat split; try done.
      * intros [= ->]. reflexivity.
      * intros e' [= <-] Hne. by destruct e.
Qed.

Lemma webhook_response_witness :
  let w := world_with alice None None (Ok [TextMessageEvent example_event]) in
  let bad := world_with alice None None (Raise (OtherException "JSONDecodeError")) in
  fst (webhook w example_cfg signed_request fresh_state)
    = Ok ("LINE handler not initialized", 500%nat) /\
  fst (webhook w example_cfg unsigned_request ready_state)
    = Ok ("Invalid signature", 400%nat) /\
  fst (webhook bad example_cfg signed_request ready_state)
    = Ok ("Internal server error", 500%nat) /\
  fst (webhook w example_cfg signed_request ready_state) = Ok ("OK", 200%nat).
Proof.
  intros w bad. split; [|split; [|split]].
  - exact (proj1 (webhook_response w example_cfg signed_request fresh_state) eq_refl).
  - destruct (proj2 (webhook_response w example_cfg unsigned_request ready_state)
                _ eq_refl) as (_ & H & _).
    exact (H eq_refl).
  - destruct (proj2 (webhook_response bad example_cfg signed_request ready_state)
                _ eq_refl) as (_ & _ & H & _).
    exact (H (OtherException "JSONDecodeError") eq_refl ltac:(discriminate)).
  - destruct (proj2 (webhook_response w example_cfg signed_request ready_state)
                _ eq_refl) as (_ & _ & _ & H).
    exact (H eq_refl).
Defined.

(** C9.  With the dispatcher initialized, a request without the signature
    header is read as carrying the empty signature, the empty signature fails
    the check, and the response is 400 ["Invalid signature"]; the only effect
    is one ERROR record. *)
Theorem webhook_missing_signature w cfg req s h :
  handler s = Some h ->
  (forall k v, (k, v) ∈ headers req -> lower k <> lower "X-Line-Signature") ->
  headers_get (headers req) "X-Line-Signature" "" = "" /\
  validate w h (get_data req) "" = false /\
  webhook w cfg req s =
  (Ok ("Invalid signature", 400%nat), add_log (rec ERROR "Invalid signature" NoArg) s).
Proof.
  intros Hh Habs.
  assert (headers_get (headers req) "X-Line-Signature" "" = "") as Hg
    by by apply headers_get_absent.
  split; [exact Hg|]. split; [apply validate_empty|].
  rewrite webhook_eq, Hh, Hg, handle_invalid; [reflexivity|apply validate_empty].
Qed.

Lemma webhook_missing_signature_witness :
  webhook (world_with alice None None (Ok [])) example_cfg unsigned_request ready_state =
  (Ok ("Invalid signature", 400%nat),
   add_log (rec ERROR "Invalid signature" NoArg) ready_state).
Proof.
  refine (proj2 (proj2 (webhook_missing_signature (world_with alice None None (Ok []))
                          example_cfg unsigned_request ready_state _ eq_refl _))).
  intros k v Hin. vm_compute in Hin.
  apply elem_of_cons in Hin as [[= -> ->]|Hin]; [vm_compute; discriminate|].
  by apply elem_of_nil in Hin.
Defined.

(** C10.  When both secrets are set, the profile client is built and the
    dispatcher's constructor raises, [initialize_line_bot] returns [False]
    with [line_bot_api] assigned and [handler] as it was.  Starting from
    [handler = None], [/] then reports [line_configured] true while every
    POST [/webhook] answers 500 ["LINE handler not initialized"], and goes on
    doing so after any such request. *)
Theorem initialize_line_bot_partial w cfg s token secret e :
  LINE_CHANNEL_ACCESS_TOKEN cfg = Some token -> token <> "" ->
  LINE_CHANNEL_SECRET cfg = Some secret -> secret <> "" ->
  LineBotApi_init w token = None ->
  WebhookHandler_init w secret = Some e ->
  handler s = None ->
  let s' := snd (initialize_line_bot w cfg s) in
  fst (initialize_line_bot w cfg s) = Ok false /\
  line_bot_api s' = Some {| channel_access_token := token |} /\
  handler s' = None /\
  (exists o, fst (home s') = Ok {| body := Json o; status := 200 |} /\
             o !! "line_configured" = Some (JBool true)) /\
  (forall req,
     fst (webhook w cfg req s') = Ok ("LINE handler not initialized", 500%nat) /\
     handler (snd (webhook w cfg req s')) = None /\
     line_bot_api (snd (webhook w cfg req s')) = line_bot_api s').
Proof.
  intros Ht Htne Hs Hsne Hl Hw Hh.
  assert (initialize_line_bot w cfg s =
          (Ok false,
           add_log (rec ERROR "Failed to initialize LINE Bot API: " (ExnArg e))
             {| line_bot_api := Some {| channel_access_token := token |};
                handler := handler s; sheets_client := sheets_client s;
                appended := appended s; logs := logs s |})) as Hinit.
  { unfold initialize_line_bot. run. rewrite Ht, Hs. simpl.
    destruct (String.eqb_spec token ""); [done|].
    destruct (String.eqb_spec secret ""); [done|].
    simpl. rewrite Hl. simpl. rewrite Hw. reflexivity. }
  simpl. rewrite Hinit. simpl.
  split; [reflexivity|]. split; [reflexivity|]. split; [exact Hh|]. split.
  - eexists. split; [reflexivity|]. by simplify_map_eq.
  - intros req. rewrite webhook_eq. simpl. rewrite Hh. done.
Qed.

Lemma initialize_line_bot_partial_witness :
  let w := world_with alice None (Some (OtherException "UnicodeEncodeError")) (Ok []) in
  let s' := snd (initialize_line_bot w example_cfg fresh_state) in
  line_bot_api s' = Some {| channel_access_token := "token" |} /\
  handler s' = None /\
  fst (webhook w example_cfg signed_request s')
    = Ok ("LINE handler not initialized", 500%nat).
Proof.
  intros w s'.
  destruct (initialize_line_bot_partial w example_cfg fresh_state "token" "secret"
              (OtherException "UnicodeEncodeError")
              eq_refl ltac:(discriminate) eq_refl ltac:(discriminate)
              eq_refl eq_refl eq_refl) as (_ & Ha & Hb & _ & Hc).
  split; [exact Ha|]. split; [exact Hb|]. exact (proj1 (Hc signed_request)).
Defined.

(** * Further properties of the code *)

(** ** Initializers *)

(** X1.  [initialize_line_bot] never raises and touches neither the
    spreadsheet client nor the worksheet.  It returns [True] exactly when
    both secrets are present and non-empty and both constructors return; the
    two globals then hold handles built from the token and the secret, and
    the new dispatcher carries no callback.  When a secret is absent or empty
    no constructor is called: the two globals keep their values and one
    ERROR record ["LINE credentials not found"] is written. *)
Theorem initialize_line_bot_outcome w cfg s :
  exists b s',
    initialize_line_bot w cfg s = (Ok b, s') /\
    sheets_client s' = sheets_client s /\ appended s' = appended s /\
    (b = true <->
     exists token secret,
       LINE_CHANNEL_ACCESS_TOKEN cfg = Some token /\ token <> "" /\
       LINE_CHANNEL_SECRET cfg = Some secret /\ secret <> "" /\
       LineBotApi_init w token = None /\ WebhookHandler_init w secret = None) /\
    (b = true ->
     line_bot_api s' =
       (fun t => {| channel_access_token := t |}) <$> LINE_CHANNEL_ACCESS_TOKEN cfg /\
     handler s' =
       (fun k => {| channel_secret := k; text_message_handler := false |})
         <$> LINE_CHANNEL_SECRET cfg) /\
    (truthy (LINE_CHANNEL_ACCESS_TOKEN cfg) && truthy (LINE_CHANNEL_SECRET cfg) = false ->
     line_bot_api s' = line_bot_api s /\ handler s' = handler s /\
     logs s' = (logs s ++ [rec ERROR "LINE credentials not found" NoArg])%list).
Proof.
  unfold initialize_line_bot. run.
  destruct (LINE_CHANNEL_ACCESS_TOKEN cfg) as [token|]; simpl.
  2:{ do 2 eexists. split; [reflexivity|]. simpl. repeat split; try done.
      intros (? & ? & ? & _); done. }
  destruct (String.eqb_spec token "") as [->|Ht]; simpl.
  { do 2 eexists. split; [reflexivity|]. simpl. repeat split; try done.
    intros (? & ? & [= <-] & ? & _); done. }
  destruct (LINE_CHANNEL_SECRET cfg) as [secret|]; simpl.
  2:{ do 2 eexists. split; [reflexivity|]. simpl. repeat split; try done.
      intros (? & ? & _ & _ & ? & _); done. }
  destruct (String.eqb_spec secret "") as [->|Hs]; simpl.
  { do 2 eexists. split; [reflexivity|]. simpl. repeat split; try done.
    intros (? & ? & _ & _ & [= <-] & ? & _); done. }
  destruct (LineBotApi_init w token) as [e|] eqn:Hl; simpl.
  { do 2 eexists. split; [reflexivity|]. simpl. repeat split; try done.
    intros (? & ? & [= <-] & _ & _ & _ & ? & _); congruence. }
  destruct (WebhookHandler_init w secret) as [e|] eqn:Hw; simpl.
  { do 2 eexists. split; [reflexivity|]. simpl. repeat split; try done.
    intros (? & ? & _ & _ & [= <-] & _ & _ & ?); congruence. }
  do 2 eexists. split; [reflexivity|]. simpl. repeat split; try done.
  intros _. exists token, secret. done.
Qed.

(** X2.  [initialize_google_sheets] never raises and touches neither of
    the messaging globals nor the worksheet.  It returns [True] exactly when
    the credential blob is present and non-empty and parsing, credential
    construction and authorization all return; the client is then set from
    the blob.  On [False] the client keeps its previous value and exactly one
    ERROR record is written. *)
Theorem initialize_google_sheets_outcome w cfg s :
  exists b s',
    initialize_google_sheets w cfg s = (Ok b, s') /\
    line_bot_api s' = line_bot_api s /\ handler s' = handler s /\
    appended s' = appended s /\
    (b = true <->
     exists blob,
       GOOGLE_CREDENTIALS_JSON cfg = Some blob /\ blob <> "" /\
       json_loads w blob = None /\ from_service_account_info w blob = None /\
       authorize w blob = None) /\
    (b = true ->
     sheets_client s' =
       (fun j => {| credentials_info := j |}) <$> GOOGLE_CREDENTIALS_JSON cfg) /\
    (b = false ->
     sheets_client s' = sheets_client s /\
     exists m a, logs s' = (logs s ++ [rec ERROR m a])%list).
Proof.
  unfold initialize_google_sheets. run.
  destruct (GOOGLE_CREDENTIALS_JSON cfg) as [blob|]; simpl.
  2:{ do 2 eexists. split; [reflexivity|]. simpl. repeat split; try done; eauto.
      intros (? & ? & _); done. }
  destruct (String.eqb_spec blob "") as [->|Hb]; simpl.
  { do 2 eexists. split; [reflexivity|]. simpl. repeat split; try done; eauto.
    intros (? & [= <-] & ? & _); done. }
  destruct (json_loads w blob) as [e|] eqn:Hj; simpl.
  { do 2 eexists. split; [reflexivity|]. simpl. repeat split; try done; eauto.
    intros (? & [= <-] & _ & ? & _); congruence. }
  destruct (from_service_account_info w blob) as [e|] eqn:Hf; simpl.
  { do 2 eexists. split; [reflexivity|]. simpl. repeat split; try done; eauto.
    intros (? & [= <-] & _ & _ & ? & _); congruence. }
  destruct (authorize w blob) as [e|] eqn:Ha; simpl.
  { do 2 eexists. split; [reflexivity|]. simpl. repeat split; try done; eauto.
    intros (? & [= <-] & _ & _ & _ & ?); congruence. }
  do 2 eexists. split; [reflexivity|]. simpl. repeat split; try done.
  intros _. exists blob. done.
Qed.

(** X3.  The two initializers do not interfere: the result of each is the
    same whether it runs before or after the other, and both orders leave
    the same three globals and the same worksheet.  A failed messaging
    initialization therefore never prevents the spreadsheet one, and
    conversely. *)
Theorem initializers_independent w cfg s :
  let a := initialize_line_bot w cfg s in
  let ab := initialize_google_sheets w cfg (snd a) in
  let b := initialize_google_sheets w cfg s in
  let ba := initialize_line_bot w cfg (snd b) in
  fst a = fst ba /\ fst b = fst ab /\
  same_handles (snd ab) (snd ba) /\
  appended (snd ab) = appended (snd ba).
Proof.
  unfold initialize_line_bot, initialize_google_sheets, same_handles. run.
  destruct (truthy (LINE_CHANNEL_ACCESS_TOKEN cfg) && truthy (LINE_CHANNEL_SECRET cfg));
    destruct (truthy (GOOGLE_CREDENTIALS_JSON cfg)); simpl;
    repeat match goal with
           | |- context [match ?o with Some _ => _ | None => _ end] =>
               destruct o; simpl
           end; done.
Qed.

(** ** Request handling *)

Lemma grows_refl n s : grows n s s.
Proof.
  split; [done|]. split.
  - exists []. split; [by rewrite app_nil_r|simpl; lia].
  - exists []. by rewrite app_nil_r.
Qed.

Lemma grows_trans n m s1 s2 s3 :
  grows n s1 s2 -> grows m s2 s3 -> grows (n + m) s1 s3.
Proof.
  intros ((Ha & Hb & Hc) & (r1 & Hr1 & Hn) & (l1 & Hl1))
         ((Ha' & Hb' & Hc') & (r2 & Hr2 & Hm) & (l2 & Hl2)).
  split; [split; [congruence|split; congruence]|]. split.
  - exists (r1 ++ r2)%list. rewrite Hr2, Hr1, <- app_assoc. split; [done|].
    rewrite length_app. lia.
  - exists (l1 ++ l2)%list. by rewrite Hl2, Hl1, <- app_assoc.
Qed.

Lemma grows_weaken n m s s' : (n <= m)%nat -> grows n s s' -> grows m s s'.
Proof.
  intros Hle (Hh & (r & Hr & Hn) & Hl). split; [done|]. split; [|done].
  exists r. split; [done|lia].
Qed.

Lemma grows_add_log n r s s' : grows n s s' -> grows n s (add_log r s').
Proof.
  intros (Hh & Hr & (l & Hl)). split; [exact Hh|]. split; [exact Hr|].
  exists (l ++ [r])%list. simpl. by rewrite Hl, <- app_assoc.
Qed.

Lemma grows_add_row ws row s : grows 1 s (add_row ws row s).
Proof.
  split; [done|]. split.
  - exists [(ws, row)]. split; [done|simpl; lia].
  - exists []. simpl. by rewrite app_nil_r.
Qed.

Lemma write_to_sheet_grows w cfg u d t s :
  grows 1 s (snd (write_to_sheet w cfg u d t s)).
Proof.
  rewrite write_to_sheet_eq.
  destruct (sheets_client s) as [c|]; simpl.
  - destruct (write_exn w cfg c s _); simpl.
    + apply grows_add_log, grows_refl.
    + apply grows_add_log, grows_add_row.
  - apply grows_add_log, grows_refl.
Qed.

Lemma handle_text_message_grows w cfg ev s :
  grows 1 s (snd (handle_text_message w cfg ev s)).
Proof.
  destruct (source ev) as [src|] eqn:Hs; [destruct (message ev) as [m|] eqn:Hm|].
  - rewrite (handle_text_message_eq _ _ _ _ _ _ Hs Hm). simpl.
    pose proof (write_to_sheet_grows w cfg (user_id src)
                  (resolved_name w s (user_id src)) (text m) s) as Hg.
    destruct (write_to_sheet w cfg _ _ _ s) as [[[]|] s1]; simpl in *;
      by apply grows_add_log.
  - rewrite handle_text_message_malformed by auto. apply grows_add_log, grows_refl.
  - rewrite handle_text_message_malformed by auto. apply grows_add_log, grows_refl.
Qed.

Lemma dispatch_cons w cfg h ev evs s :
  dispatch w cfg h (ev :: evs) s =
  match dispatch_event w cfg h ev s with
  | (Ok _, s1) => dispatch w cfg h evs s1
  | (Raise e, s1) => (Raise e, s1)
  end.
Proof. reflexivity. Qed.

(** The dispatcher loop returns on every payload. *)
Lemma dispatch_grows w cfg h evs s :
  fst (dispatch w cfg h evs s) = Ok tt /\
  grows (count_text_events evs) s (snd (dispatch w cfg h evs s)).
Proof.
  revert s. induction evs as [|ev evs IH]; intros s.
  - split; [reflexivity|apply grows_refl].
  - rewrite !dispatch_cons. destruct ev as [event|]; simpl.
    + destruct (text_message_handler h).
      * pose proof (handle_text_message_returns w cfg event s) as Hr.
        pose proof (handle_text_message_grows w cfg event s) as Hg.
        destruct (handle_text_message w cfg event s) as [r s1]. simpl in *. subst r.
        destruct (IH s1) as [Hok Hgr]. split; [exact Hok|].
        apply (grows_trans 1 _ _ _ _ Hg Hgr).
      * simpl. destruct (IH s) as [Hok Hgr]. split; [exact Hok|].
        apply (grows_weaken (count_text_events evs)); [lia|exact Hgr].
    + apply IH.
Qed.

Lemma WebhookHandler_handle_grows w cfg h body sig s :
  grows (match parse_events w body with
         | Ok evs => count_text_events evs
         | Raise _ => 0
         end) s (snd (WebhookHandler_handle w cfg h body sig s)).
Proof.
  unfold WebhookHandler_handle.
  destruct (validate w h body sig); simpl.
  2:{ apply (grows_weaken 0); [lia|apply grows_refl]. }
  unfold bind, call_result.
  destruct (parse_events w body) as [evs|e]; simpl.
  - apply dispatch_grows.
  - apply grows_refl.
Qed.

(** X4.  Serving a webhook request keeps the three handles as they are,
    keeps every row already appended and every record already logged, and
    appends at most one row per text-message event of the parsed payload;
    when the payload is not parsed it appends none. *)
Theorem webhook_grows w cfg req s :
  grows (match parse_events w (get_data req) with
         | Ok evs => count_text_events evs
         | Raise _ => 0
         end) s (snd (webhook w cfg req s)).
Proof.
  rewrite webhook_eq.
  destruct (handler s) as [h|]; simpl.
  - pose proof (WebhookHandler_handle_grows w cfg h (get_data req)
                  (headers_get (headers req) "X-Line-Signature" "") s) as Hg.
    destruct (WebhookHandler_handle w cfg h _ _ s) as [[[]|[]] s1]; simpl in *;
      first [exact Hg | by apply grows_add_log].
  - apply grows_add_log, (grows_weaken 0); [lia|apply grows_refl].
Qed.

(** X5.  The endpoint never raises: it answers with status 200, 400 or
    500.  An answer other than 200 means that no handler ran: the worksheet is
    as before and exactly one ERROR record was written. *)
Theorem webhook_status w cfg req s :
  exists body code,
    fst (webhook w cfg req s) = Ok (body, code) /\
    (code = 200 \/ code = 400 \/ code = 500)%nat /\
    (code <> 200%nat ->
     appended (snd (webhook w cfg req s)) = appended s /\
     exists m a, logs (snd (webhook w cfg req s)) = (logs s ++ [rec ERROR m a])%list).
Proof.
  rewrite webhook_eq.
  destruct (handler s) as [h|]; simpl.
  2:{ do 2 eexists. split; [reflexivity|]. split; [auto|]. intros _. split; eauto. }
  unfold WebhookHandler_handle.
  destruct (validate w h _ _); simpl.
  2:{ do 2 eexists. split; [reflexivity|]. split; [auto|]. intros _. split; eauto. }
  unfold bind, call_result.
  destruct (parse_events w (get_data req)) as [evs|e]; simpl.
  - destruct (dispatch_grows w cfg h evs s) as [Hok _].
    destruct (dispatch w cfg h evs s) as [r s1]. simpl in Hok. subst r.
    do 2 eexists. split; [reflexivity|]. split; [auto|]. done.
  - destruct e; do 2 eexists; (split; [reflexivity|]); (split; [auto|]);
      intros _; split; eauto.
Qed.

Lemma dispatch_no_text_events w cfg h evs s :
  count_text_events evs = 0%nat -> dispatch w cfg h evs s = (Ok tt, s).
Proof.
  induction evs as [|[event|] evs IH]; intros Hc; [reflexivity|discriminate|].
  rewrite dispatch_cons. simpl. by apply IH.
Qed.

Lemma dispatch_without_callback w cfg h evs s :
  text_message_handler h = false -> dispatch w cfg h evs s = (Ok tt, s).
Proof.
  intros Hh. induction evs as [|ev evs IH]; [reflexivity|].
  rewrite dispatch_cons. destruct ev; simpl; [rewrite Hh|]; exact IH.
Qed.

(** X6.  A correctly signed payload without text-message events is
    answered 200 ["OK"] and leaves the state untouched: no row, no log
    record. *)
Theorem webhook_no_text_events w cfg req s h evs :
  handler s = Some h ->
  validate w h (get_data req) (headers_get (headers req) "X-Line-Signature" "") = true ->
  parse_events w (get_data req) = Ok evs ->
  count_text_events evs = 0%nat ->
  webhook w cfg req s = (Ok ("OK", 200%nat), s).
Proof.
  intros Hh Hv Hp Hc. rewrite webhook_eq, Hh. unfold WebhookHandler_handle.
  rewrite Hv. unfold bind, call_result. rewrite Hp.
  by rewrite dispatch_no_text_events.
Qed.

Lemma webhook_no_text_events_witness :
  webhook (world_with alice None None (Ok [OtherEvent; OtherEvent])) example_cfg
    signed_request ready_state = (Ok ("OK", 200%nat), ready_state).
Proof.
  exact (webhook_no_text_events (world_with alice None None (Ok [OtherEvent; OtherEvent]))
           example_cfg signed_request ready_state _ _ eq_refl eq_refl eq_refl eq_refl).
Defined.

(** X7.  The dispatcher that a successful [initialize_line_bot] stores is a
    new object without callbacks.  In the state it leaves, a correctly signed
    payload is answered 200 ["OK"] and nothing else happens, whatever events
    it carries: [handle_text_message] is not run, no row is appended and the
    application logs nothing. *)
Theorem initialized_dispatcher_runs_no_handler w cfg s0 s req evs :
  initialize_line_bot w cfg s0 = (Ok true, s) ->
  (forall h, handler s = Some h ->
     validate w h (get_data req) (headers_get (headers req) "X-Line-Signature" "") = true) ->
  parse_events w (get_data req) = Ok evs ->
  webhook w cfg req s = (Ok ("OK", 200%nat), s).
Proof.
  intros Hi Hv Hp.
  assert (exists h, handler s = Some h /\ text_message_handler h = false) as (h & Hh & Hc).
  { revert Hi. unfold initialize_line_bot. run.
    destruct (truthy (LINE_CHANNEL_ACCESS_TOKEN cfg) && truthy (LINE_CHANNEL_SECRET cfg));
      simpl; [|intros [= ? ?]; discriminate].
    destruct (LineBotApi_init w _); simpl; [intros [= ? ?]; discriminate|].
    destruct (WebhookHandler_init w _); simpl; [intros [= ? ?]; discriminate|].
    intros [= <-]. eexists. split; reflexivity. }
  rewrite webhook_eq, Hh. unfold WebhookHandler_handle.
  rewrite (Hv h Hh). unfold bind, call_result. rewrite Hp.
  by rewrite dispatch_without_callback.
Qed.

Lemma initialized_dispatcher_runs_no_handler_witness :
  let w := world_with alice None None (Ok [TextMessageEvent example_event]) in
  let s := snd (initialize_line_bot w example_cfg ready_state) in
  sheets_client s <> None /\
  webhook w example_cfg signed_request s = (Ok ("OK", 200%nat), s) /\
  appended s = [].
Proof.
  intros w s. split; [discriminate|]. split; [|reflexivity].
  refine (initialized_dispatcher_runs_no_handler w example_cfg ready_state s
            signed_request [TextMessageEvent example_event] eq_refl _ eq_refl).
  intros h [= <-]. reflexivity.
Defined.

(** ** Rows and log records *)

Lemma handle_text_message_reliable w cfg ev s c src m :
  reliable_sheets w -> sheets_client s = Some c ->
  source ev = Some src -> message ev = Some m ->
  let row := [now_strftime w s; user_id src; resolved_name w s (user_id src); text m] in
  handle_text_message w cfg ev s =
  (Ok tt,
   add_log (rec INFO "Message processed successfully: " (TextArg (text m)))
     (add_log (rec INFO "Data written to sheet: " (RowArg row))
        (add_row (target_worksheet cfg c) row s))).
Proof.
  intros (Ho & Hw & Ha) Hc Hs Hm. simpl.
  rewrite (handle_text_message_eq _ _ _ _ _ _ Hs Hm). simpl.
  rewrite write_to_sheet_eq, Hc. simpl. unfold write_exn.
  by rewrite Ho, Hw, Ha.
Qed.

(** X8.  On a spreadsheet service whose calls all return, with the client
    set, running [handle_text_message] on a sequence of events that carry
    sender and text, one after the other, appends one row per run, in that
    order, holding the event's sender id and text in the second and fourth
    column.  Nothing is deduplicated: a second run on the same event writes a
    second row. *)
Theorem handler_appends_every_event w cfg evs s c :
  reliable_sheets w ->
  sheets_client s = Some c ->
  Forall (fun ev => is_Some (source ev) /\ is_Some (message ev)) evs ->
  map sender_and_text
    (appended (foldl (fun s ev => snd (handle_text_message w cfg ev s)) s evs)) =
  (map sender_and_text (appended s) ++ map fields_of evs)%list.
Proof.
  intros Hr Hc Hall.
  revert s Hc. induction Hall as [|ev evs [[src Hs] [m Hm]] _ IH]; intros s Hc.
  - simpl. by rewrite app_nil_r.
  - cbn [foldl].
    rewrite (handle_text_message_reliable _ cfg _ _ _ _ _ Hr Hc Hs Hm).
    rewrite IH by exact Hc. simpl.
    rewrite map_app, <- app_assoc. simpl.
    unfold fields_of at 2. by rewrite Hs, Hm.
Qed.

Lemma handler_appends_every_event_witness :
  map sender_and_text
    (appended (foldl (fun s ev => snd (handle_text_message
                                         (world_with alice None None (Ok []))
                                         example_cfg ev s))
                 ready_state [example_event; example_event])) =
  [(Some "U123", Some "hello"); (Some "U123", Some "hello")].
Proof.
  refine (handler_appends_every_event (world_with alice None None (Ok [])) example_cfg
            [example_event; example_event] ready_state _ _ eq_refl _).
  - split; [|split]; intros; reflexivity.
  - repeat constructor; simpl; eauto.
Defined.

Lemma app_singleton_neq {A} (l : list A) (x : A) : l <> (l ++ [x])%list.
Proof.
  intros H. apply (f_equal length) in H. rewrite length_app in H. simpl in H. lia.
Qed.

(** X9.  The last record the handler writes tells what happened to the
    worksheet: it is at level INFO exactly when one row was appended, and at
    level ERROR exactly when the worksheet is as before. *)
Theorem handler_last_record w cfg ev s :
  let s' := snd (handle_text_message w cfg ev s) in
  exists r,
    last (logs s') = Some r /\
    (levelname r = INFO <-> exists row, appended s' = (appended s ++ [row])%list) /\
    (levelname r = ERROR <-> appended s' = appended s).
Proof.
  simpl.
  destruct (source ev) as [src|] eqn:Hs; [destruct (message ev) as [m|] eqn:Hm|].
  - rewrite (handle_text_message_eq _ _ _ _ _ _ Hs Hm). simpl.
    rewrite write_to_sheet_eq.
    destruct (sheets_client s) as [c|]; simpl.
    + destruct (write_exn w cfg c s _); simpl.
      * eexists. rewrite last_snoc. split; [reflexivity|]. simpl. split; split; try done.
        intros [row Hrow]. by apply app_singleton_neq in Hrow.
      * eexists. rewrite last_snoc. split; [reflexivity|]. simpl. split; split; try done.
        -- eauto.
        -- intros H. symmetry in H. by apply app_singleton_neq in H.
    + eexists. rewrite last_snoc. split; [reflexivity|]. simpl. split; split; try done.
      intros [row Hrow]. by apply app_singleton_neq in Hrow.
  - rewrite handle_text_message_malformed by auto. simpl.
    eexists. rewrite last_snoc. split; [reflexivity|]. simpl. split; split; try done.
    intros [row Hrow]. by apply app_singleton_neq in Hrow.
  - rewrite handle_text_message_malformed by auto. simpl.
    eexists. rewrite last_snoc. split; [reflexivity|]. simpl. split; split; try done.
    intros [row Hrow]. by apply app_singleton_neq in Hrow.
Qed.

(** X10.  What [/] reports does not change by serving webhook requests:
    after any sequence of them it answers as it did before. *)
Theorem home_stable_under_webhooks w cfg reqs s :
  fst (home (foldl (fun s req => snd (webhook w cfg req s)) s reqs)) = fst (home s).
Proof.
  revert s. induction reqs as [|req reqs IH]; intros s; [reflexivity|].
  cbn [foldl]. rewrite IH.
  assert (same_handles s (snd (webhook w cfg req s))) as (Ha & _ & Hc).
  { rewrite webhook_eq. destruct (handler s) as [h|]; simpl; [|done].
    pose proof (WebhookHandler_handle_grows w cfg h (get_data req)
                  (headers_get (headers req) "X-Line-Signature" "") s) as [Hh _].
    by destruct (WebhookHandler_handle w cfg h _ _ s) as [[[]|[]] s1]. }
  unfold home. run. by rewrite Ha, Hc.
Qed.
